(** * A shallow embedding of [sum_calculator.py]

    The module sums a variable number of Python values
    ([sum_numbers], [sum_from_list]) and offers a prompt-driven session
    ([interactive_calculator]).  Python integers are unbounded ([Z]),
    Python floats are IEEE-754 binary64 numbers (the [spec_float] of the
    standard library, with precision 53 and maximal exponent 1024), and
    [bool] is a subclass of [int]. *)

From Stdlib Require Import ZArith List String Ascii Bool Lia Permutation.
From Stdlib Require Import SpecFloat DecimalString.
Import ListNotations.

Local Open Scope Z_scope.

(** ** Python floats *)

Module Float64.

Definition prec : Z := 53.
Definition emax : Z := 1024.

(** [x + y] on two floats: round to nearest, ties to even. *)
Definition add (x y : spec_float) : spec_float := SFadd prec emax x y.

(** Conversion of an integer to a float, as the interpreter does it
    when an [int] meets a [float] in an addition: the nearest float,
    ties to even; an integer that rounds beyond the largest finite
    float is refused ([OverflowError]). *)
Definition of_int (z : Z) : option spec_float :=
  match binary_normalize prec emax z 0 false with
  | S754_infinity _ => None
  | f => Some f
  end.

Definition zero : spec_float := S754_zero false.
Definition one : spec_float := S754_finite false 4503599627370496 (-52).
Definition two : spec_float := S754_finite false 4503599627370496 (-51).
(** 9007199254740992.0, that is 2 ** 53 *)
Definition two_53 : spec_float := S754_finite false 4503599627370496 1.
(** 9007199254740994.0, that is 2 ** 53 + 2 *)
Definition two_53_plus_2 : spec_float := S754_finite false 4503599627370497 1.

End Float64.

(** ** Python values and exceptions *)

(** The exceptions that occur.  [TypeError ty text] is the one raised by
    [sum_numbers]; its message is
    [f"All arguments must be numbers. Got {ty}: {text}"], kept here as
    the two texts that are formatted into it.  [OtherError name] is an
    exception of any other class, given by the name of the class. *)
Inductive exn : Type :=
| TypeError (ty : string) (text : string)
| OverflowError
| ValueError
| KeyboardInterrupt
| EOFError
| OtherError (name : string).

Inductive result (A : Type) : Type :=
| Ok (a : A)
| Raise (e : exn).

Arguments Ok {A} a.
Arguments Raise {A} e.

Definition bind {A B : Type} (c : result A) (k : A -> result B) : result B :=
  match c with
  | Ok a => k a
  | Raise e => Raise e
  end.

Declare Scope result_scope.
Delimit Scope result_scope with result.
Notation "x <- c ;; k" := (bind c (fun x => k))
  (at level 61, c at next level, right associativity) : result_scope.
Local Open Scope result_scope.

(** The objects a caller can pass: an [int], a [bool], a [float], a
    [str], [None], and [VOther ty text] for an object of any other class
    that is not derived from [int] or from [float], a list for one.
    Such an object is given by what [sum_numbers] looks at: the name of
    its type and the outcome of formatting it as in [f"{num}"], which is
    its text or the exception that the formatting raises (a list that
    holds an integer too long to be printed, a list nested too deep).
    Instances of classes derived from [int] or [float] other than
    [bool], whose addition the class may redefine, are not part of the
    model. *)
Inductive value : Type :=
| VInt (z : Z)
| VBool (b : bool)
| VFloat (f : spec_float)
| VStr (s : string)
| VNone
| VOther (ty : string) (text : result string).

(** [type(num).__name__] *)
Definition type_name (num : value) : string :=
  match num with
  | VInt _ => "int"
  | VBool _ => "bool"
  | VFloat _ => "float"
  | VStr _ => "str"
  | VNone => "NoneType"
  | VOther ty _ => ty
  end.

(** ** The running total *)

(** [total] starts as the integer 0 and stays an [int] or a [float]. *)
Inductive number : Type :=
| NInt (z : Z)
| NFloat (f : spec_float).

(** The numeric content of a value that passes
    [isinstance(num, (int, float))]; [None] when the check fails.
    [True] and [False] are the integers 1 and 0. *)
Definition as_number (num : value) : option number :=
  match num with
  | VInt z => Some (NInt z)
  | VBool b => Some (NInt (Z.b2z b))
  | VFloat f => Some (NFloat f)
  | _ => None
  end.

(** [isinstance(num, (int, float))] *)
Definition isinstance_int_float (num : value) : bool :=
  match as_number num with
  | Some _ => true
  | None => false
  end.

(** [isinstance(num, int)] *)
Definition isinstance_int (num : value) : bool :=
  match num with
  | VInt _ | VBool _ => true
  | _ => false
  end.

(** A number, and an integer, in the sense of these checks. *)
Definition numeric (num : value) : Prop := isinstance_int_float num = true.
Definition integral (num : value) : Prop := isinstance_int num = true.

(** [total + num] on numbers: exact on two integers; as soon as one
    operand is a float the other one is converted and the floats are
    added. *)
Definition num_add (total num : number) : result number :=
  match total, num with
  | NInt x, NInt y => Ok (NInt (x + y))
  | NInt x, NFloat g =>
      match Float64.of_int x with
      | Some f => Ok (NFloat (Float64.add f g))
      | None => Raise OverflowError
      end
  | NFloat f, NInt y =>
      match Float64.of_int y with
      | Some g => Ok (NFloat (Float64.add f g))
      | None => Raise OverflowError
      end
  | NFloat f, NFloat g => Ok (NFloat (Float64.add f g))
  end.

(** The additions that fail: an integer that has no float is added to a
    float, or a float to it. *)
Definition overflows (total num : number) : Prop :=
  match total, num with
  | NInt z, NFloat _ | NFloat _, NInt z => Float64.of_int z = None
  | _, _ => False
  end.

(** ** [sum_numbers] and [sum_from_list] *)

(** What the loop finds in [num]: a number, which passes
    [isinstance(num, (int, float))], or a value that is refused, with
    what the message of the [TypeError] is made of, the name of its type
    and the outcome of formatting it. *)
Inductive checked : Type :=
| Accepted (n : number)
| Refused (ty : string) (text : result string).

Definition check (num : value) : checked :=
  match num with
  | VInt z => Accepted (NInt z)
  | VBool b => Accepted (NInt (Z.b2z b))
  | VFloat f => Accepted (NFloat f)
  | VStr s => Refused "str" (Ok s)
  | VNone => Refused "NoneType" (Ok "None"%string)
  | VOther ty text => Refused ty text
  end.

(** The outcome of formatting [num] for the message, when [num] is
    refused. *)
Definition message_text (num : value) : option (result string) :=
  match check num with
  | Accepted _ => None
  | Refused _ text => Some text
  end.

(** The [for num in args] loop, from the current [total].  The message
    of the [TypeError] is formatted before the exception is raised, and
    an exception raised by the formatting is the one that leaves the
    loop. *)
Fixpoint sum_loop (total : number) (args : list value) : result number :=
  match args with
  | [] => Ok total
  | num :: rest =>
      match check num with
      | Refused ty text =>
          message <- text ;;
          Raise (TypeError ty message)
      | Accepted n =>
          total' <- num_add total n ;;
          sum_loop total' rest
      end
  end.

Definition sum_numbers (args : list value) : result number :=
  sum_loop (NInt 0) args.

(** The list is unpacked into the arguments of [sum_numbers]. *)
Definition sum_from_list (numbers : list value) : result number :=
  sum_numbers numbers.

(** ** Reference totals

    What the specification calls the arithmetic sum: the exact sum of
    integers, and the total accumulated from 0 one element after the
    other. *)

(** The integer an [int] or a [bool] stands for. *)
Definition int_value (num : value) : Z :=
  match num with
  | VInt z => z
  | VBool b => Z.b2z b
  | _ => 0
  end.

Definition int_sum (zs : list Z) : Z := fold_right Z.add 0 zs.

(** The number a value is added as (0 for a value that is not a
    number, which [sum_numbers] never adds). *)
Definition number_of (num : value) : number :=
  match as_number num with
  | Some n => n
  | None => NInt 0
  end.

(** The total after all of [ns], each addition applied to the total of
    the elements before it; an addition that fails leaves no total. *)
Definition accumulated_total (ns : list number) : result number :=
  fold_left (fun acc n => t <- acc ;; num_add t n) ns (Ok (NInt 0)).

(** Left-to-right sum of floats, from [0.0]. *)
Definition float_sum (fs : list spec_float) : spec_float :=
  fold_left Float64.add fs Float64.zero.

(** [True] and [False] replaced by the integers 1 and 0. *)
Definition bool_as_int (num : value) : value :=
  match num with
  | VBool b => VInt (Z.b2z b)
  | _ => num
  end.

(** ** Strings read at the prompt

    A string is a sequence of code points below 256. *)

(** [str.isspace] on one character. *)
Definition is_space (c : ascii) : bool :=
  let n := nat_of_ascii c in
  ((9 <=? n) && (n <=? 13) || (28 <=? n) && (n <=? 32)
   || (n =? 133) || (n =? 160))%nat.

Definition is_empty (s : string) : bool :=
  match s with
  | EmptyString => true
  | String _ _ => false
  end.

Fixpoint lstrip (s : string) : string :=
  match s with
  | EmptyString => EmptyString
  | String c s' => if is_space c then lstrip s' else s
  end.

Fixpoint rstrip (s : string) : string :=
  match s with
  | EmptyString => EmptyString
  | String c s' =>
      let r := rstrip s' in
      if is_space c && is_empty r then EmptyString else String c r
  end.

(** [s.strip()] *)
Definition strip (s : string) : string := rstrip (lstrip s).

(** [f"Number {n} (or press Enter to calculate): "] *)
Definition prompt_text (n : nat) : string :=
  ("Number " ++ NilEmpty.string_of_uint (Nat.to_uint n)
   ++ " (or press Enter to calculate): ")%string.

Definition newline : string := String (ascii_of_nat 10) EmptyString.

(** ** The interactive session *)

(** What the session writes, in order: [Print s] for [print(s)],
    [Prompt s] for the prompt that [input(s)] writes,
    [PrintSum numbers result] for
    [print(f"\nSum of {numbers} = {result}")] and [PrintError e] for
    [print(f"Error calculating sum: {e}")].  The two formatted lines keep
    the values that are formatted into them. *)
Inductive output : Type :=
| Print (s : string)
| Prompt (s : string)
| PrintSum (numbers : list spec_float) (total : number)
| PrintError (e : exn).

(** How one pass through the [try] block ends when nothing is raised. *)
Inductive step : Type :=
| Append (numbers : list spec_float)
| Break.

(** How the [while] loop is left. *)
Inductive loop_exit : Type :=
| Broke (numbers : list spec_float)
| Returned
| Propagated (e : exn).

Section Session.

(** [float] applied to a string: the parsed number, or [None] where
    Python raises [ValueError]. *)
Variable float_of_string : string -> option spec_float.

Definition py_float (s : string) : result spec_float :=
  match float_of_string s with
  | Some f => Ok f
  | None => Raise ValueError
  end.

(** The [try] block; [reply] is what the call of [input] gives: a line,
    or an exception. *)
Definition try_block (numbers : list spec_float) (reply : result string)
  : result step :=
  line <- reply ;;
  let user_input := strip line in
  if is_empty user_input then Ok Break
  else
    number <- py_float user_input ;;
    Ok (Append (numbers ++ [number])).

(** The [while True] loop.  [replies] holds what the successive calls
    of [input] give; when it is exhausted the input has reached its
    end and [input] raises [EOFError]. *)
Fixpoint entry_loop (numbers : list spec_float) (replies : list (result string))
  : list output * loop_exit :=
  let prompt := Prompt (prompt_text (List.length numbers + 1)) in
  match replies with
  | [] => ([prompt], Propagated EOFError)
  | reply :: replies' =>
      match try_block numbers reply with
      | Ok Break => ([prompt], Broke numbers)
      | Ok (Append numbers') =>
          let (out, ex) := entry_loop numbers' replies' in
          (prompt :: out, ex)
      | Raise ValueError =>
          let (out, ex) := entry_loop numbers replies' in
          (prompt :: Print "Please enter a valid number." :: out, ex)
      | Raise KeyboardInterrupt =>
          ([prompt; Print (newline ++ "Calculation cancelled.")%string], Returned)
      | Raise e => ([prompt], Propagated e)
      end
  end.

(** The code after the loop. *)
Definition after_loop (ex : loop_exit) : list output * result unit :=
  match ex with
  | Returned => ([], Ok tt)
  | Propagated e => ([], Raise e)
  | Broke numbers =>
      match numbers with
      | [] => ([Print "No numbers entered."], Ok tt)
      | _ :: _ =>
          match sum_from_list (map VFloat numbers) with
          | Ok total => ([PrintSum numbers total], Ok tt)
          | Raise e => ([PrintError e], Ok tt)
          end
      end
  end.

(** The session from the top of the loop, with [numbers] collected. *)
Definition session_from (numbers : list spec_float) (replies : list (result string))
  : list output * result unit :=
  let (out, ex) := entry_loop numbers replies in
  let (out', r) := after_loop ex in
  (out ++ out', r).

Definition banner : list output :=
  [Print "Simple Sum Calculator";
   Print "Enter numbers to sum (press Enter with empty input to calculate):"].

Definition interactive_calculator (replies : list (result string))
  : list output * result unit :=
  let (out, r) := session_from [] replies in
  (banner ++ out, r).

(** A reply after which the loop prompts again. *)
Definition prompts_again (reply : result string) : bool :=
  match reply with
  | Ok line => negb (is_empty (strip line))
  | Raise ValueError => true
  | Raise _ => false
  end.

(** The two lines that report on the summation. *)
Definition is_sum_line (o : output) : bool :=
  match o with
  | PrintSum _ _ | PrintError _ => true
  | _ => false
  end.

Definition plain_line (o : output) : Prop := is_sum_line o = false.

(** A float that [float] gives on some string. *)
Definition parsed (f : spec_float) : Prop :=
  exists s, float_of_string s = Some f.

End Session.

(** ** Entries and the command-line program *)

(** A total that is an [int], and one that is a [float]. *)
Definition is_int_total (t : number) : Prop := exists z, t = NInt z.
Definition is_float_total (t : number) : Prop := exists f, t = NFloat f.

(** A string made of whitespace only. *)
Fixpoint all_space (s : string) : bool :=
  match s with
  | EmptyString => true
  | String c s' => is_space c && all_space s'
  end.

(** A reply at which the loop stops asking: an empty entry, or an
    exception other than [ValueError]. *)
Definition stops (reply : result string) : Prop := prompts_again reply = false.

(** The float literals [1.5], [2.5], [3.0] and [7.0]. *)
Module Literal.

Definition f1_5 : spec_float := S754_finite false 6755399441055744 (-52).
Definition f2_5 : spec_float := S754_finite false 5629499534213120 (-51).
Definition f3_0 : spec_float := S754_finite false 6755399441055744 (-51).
Definition f7_0 : spec_float := S754_finite false 7881299347898368 (-50).

End Literal.

(** What the program writes: [Line s] for [print(s)],
    [ExampleLine call value] for [print(f"{call} = {value}")] where
    [value] is the result of the call written in [call], and the lines
    of the session. *)
Inductive program_output : Type :=
| Line (s : string)
| ExampleLine (call : string) (value : number)
| Session (o : output).

Section Program.

Variable float_of_string : string -> option spec_float.

(** The floats that the entries [lines] contribute, in the order of
    entry: each entry is stripped and parsed, and an entry that [float]
    refuses contributes nothing. *)
Definition accepted (lines : list string) : list spec_float :=
  flat_map
    (fun line =>
       match float_of_string (strip line) with
       | Some number => [number]
       | None => []
       end)
    lines.

(** The block run when the module is the main program.  The argument
    of each [print] is evaluated before anything is written for it. *)
Definition main (replies : list (result string))
  : list program_output * result unit :=
  let l0 := [Line "Example calculations:"] in
  match sum_numbers [VInt 1; VInt 2; VInt 3; VInt 4; VInt 5] with
  | Raise e => (l0, Raise e)
  | Ok r1 =>
      let l1 := l0 ++ [ExampleLine "sum_numbers(1, 2, 3, 4, 5)" r1] in
      match sum_from_list [VInt 10; VInt 20; VInt 30] with
      | Raise e => (l1, Raise e)
      | Ok r2 =>
          let l2 := l1 ++ [ExampleLine "sum_from_list([10, 20, 30])" r2] in
          match sum_numbers [VFloat Literal.f1_5; VFloat Literal.f2_5;
                             VFloat Literal.f3_0] with
          | Raise e => (l2, Raise e)
          | Ok r3 =>
              let l3 :=
                l2 ++ [ExampleLine "sum_numbers(1.5, 2.5, 3.0)" r3; Line ""] in
              let (out, r) := interactive_calculator float_of_string replies in
              (l3 ++ map Session out, r)
          end
      end
  end.

End Program.

(** ** Sample data *)

(** [(2 ** 1024, 1.0)]: two numbers, the first too large for a float. *)
Definition overflowing_args : list value :=
  [VInt (2 ^ 1024); VFloat Float64.one].


(** [(9007199254740992.0, 1.0, 1.0)] and the same values in another
    order, [(1.0, 1.0, 9007199254740992.0)]. *)
Definition rounding_args : list value :=
  [VFloat Float64.two_53; VFloat Float64.one; VFloat Float64.one].

Definition rounding_args_reordered : list value :=
  [VFloat Float64.one; VFloat Float64.one; VFloat Float64.two_53].

(** An instance of [float_of_string] to run sessions with: it reads a
    plain decimal integer with an optional sign, and gives the float
    that [float] gives on such a string; every other string is taken as
    one that [float] refuses. *)
Definition digit_value (c : ascii) : option Z :=
  let n := nat_of_ascii c in
  if ((48 <=? n) && (n <=? 57))%nat then Some (Z.of_nat (n - 48)) else None.

Fixpoint digits_value (acc : Z) (s : string) : option Z :=
  match s with
  | EmptyString => Some acc
  | String c s' =>
      match digit_value c with
      | Some d => digits_value (10 * acc + d) s'
      | None => None
      end
  end.

Definition float_of_integer_literal (s : string) : option spec_float :=
  let unsigned (negative : bool) (digits : string) :=
    if is_empty digits then None
    else
      option_map
        (fun z => binary_normalize Float64.prec Float64.emax
                    (if negative then - z else z) 0 negative)
        (digits_value 0 digits) in
  match s with
  | String "-" digits => unsigned true digits
  | String "+" digits => unsigned false digits
  | _ => unsigned false s
  end.

(** A session: two numbers, a mistyped entry, a third number, then an
    empty line. *)
Definition sample_replies : list (result string) :=
  [Ok "1"%string; Ok " 2 "%string; Ok "abc"%string; Ok "-3"%string;
   Ok ""%string].

(** The floats [1.0], [2.0] and [-3.0] that this session collects. *)
Definition sample_numbers : list spec_float :=
  [Float64.one; Float64.two; S754_finite true 6755399441055744 (-51)].

(** What the loop of this session writes. *)
Definition sample_prompts : list output :=
  [Prompt (prompt_text 1); Prompt (prompt_text 2); Prompt (prompt_text 3);
   Print "Please enter a valid number."; Prompt (prompt_text 3);
   Prompt (prompt_text 4)].

(** * Properties of the summation *)

Lemma integral_numeric (num : value) : integral num -> numeric num.
Proof. destruct num; intros H; try reflexivity; discriminate H. Qed.

(** The check of the loop agrees with [isinstance] and [type_name]. *)
Lemma check_as_number (num : value) :
  as_number num
  = match check num with
    | Accepted n => Some n
    | Refused _ _ => None
    end.
Proof. now destruct num. Qed.

Lemma check_numeric (num : value) :
  numeric num -> check num = Accepted (number_of num).
Proof. destruct num; intros H; try reflexivity; discriminate H. Qed.

Lemma check_integral (num : value) :
  integral num -> check num = Accepted (NInt (int_value num)).
Proof. destruct num; intros H; try reflexivity; discriminate H. Qed.


Lemma check_bool_as_int (num : value) : check (bool_as_int num) = check num.
Proof. now destruct num. Qed.

(** The loop over a concatenation runs over the first part, then over
    the second one from the total reached. *)
Lemma sum_loop_app (l1 l2 : list value) :
  forall total,
    sum_loop total (l1 ++ l2) = (t <- sum_loop total l1 ;; sum_loop t l2).
Proof.
  induction l1 as [| num l1 IH]; intros total; simpl.
  - reflexivity.
  - destruct (check num) as [n | ty text]; [| now destruct text].
    destruct (num_add total n) as [t | e]; simpl; [apply IH | reflexivity].
Qed.

(** A failed total stays failed. *)
Lemma accumulate_raise (ns : list number) (e : exn) :
  fold_left (fun acc n => t <- acc ;; num_add t n) ns (Raise e) = Raise e.
Proof. induction ns as [| n ns IH]; simpl; [reflexivity | exact IH]. Qed.

Lemma sum_loop_accumulates (args : list value) :
  Forall numeric args ->
  forall total,
    sum_loop total args
    = fold_left (fun acc n => t <- acc ;; num_add t n)
        (map number_of args) (Ok total).
Proof.
  induction 1 as [| num args Hnum _ IH]; intros total; simpl.
  - reflexivity.
  - rewrite (check_numeric num Hnum).
    destruct (num_add total (number_of num)) as [t | e]; simpl.
    + apply IH.
    + symmetry. apply accumulate_raise.
Qed.

(** Over numbers the loop ends with a total, or with the overflow of a
    conversion. *)
Lemma sum_loop_numeric_outcome (args : list value) :
  Forall numeric args ->
  forall total,
    (exists t, sum_loop total args = Ok t)
    \/ sum_loop total args = Raise OverflowError.
Proof.
  induction 1 as [| num args Hnum _ IH]; intros total; simpl.
  - left. now exists total.
  - rewrite (check_numeric num Hnum).
    destruct total as [x | f], (number_of num) as [y | g]; simpl;
      try apply IH.
    + destruct (Float64.of_int x); simpl; [apply IH | now right].
    + destruct (Float64.of_int y); simpl; [apply IH | now right].
Qed.

Lemma num_add_raise (total num : number) (e : exn) :
  num_add total num = Raise e <-> e = OverflowError /\ overflows total num.
Proof.
  destruct total as [x | f], num as [y | g]; simpl.
  - split; [discriminate | intros [_ []]].
  - destruct (Float64.of_int x).
    + split; [discriminate | intros [_ H]; discriminate H].
    + split; [now intros [= <-] | now intros [-> _]].
  - destruct (Float64.of_int y).
    + split; [discriminate | intros [_ H]; discriminate H].
    + split; [now intros [= <-] | now intros [-> _]].
  - split; [discriminate | intros [_ []]].
Qed.

(** An overflow comes from one addition, after a prefix that has a
    total. *)
Lemma sum_loop_overflow (args : list value) :
  Forall numeric args ->
  forall total,
    sum_loop total args = Raise OverflowError
    <-> exists pre num post t,
          args = pre ++ num :: post
          /\ sum_loop total pre = Ok t
          /\ overflows t (number_of num).
Proof.
  induction 1 as [| x args Hx Hargs IH]; intros total.
  - split; [discriminate |].
    intros (pre & num & post & t & Heq & _). now destruct pre.
  - cbn [sum_loop]. rewrite (check_numeric x Hx).
    destruct (num_add total (number_of x)) as [t1 | e] eqn:Hadd; simpl.
    + rewrite IH. split.
      * intros (pre & num & post & t & -> & Hpre & Hover).
        exists (x :: pre), num, post, t. repeat split; auto.
        cbn [sum_loop]. rewrite (check_numeric x Hx), Hadd. exact Hpre.
      * intros (pre & num & post & t & Heq & Hpre & Hover).
        destruct pre as [| y pre]; simpl in Heq; injection Heq as <- ->.
        -- injection Hpre as <-.
           assert (Hr : num_add total (number_of x) = Raise OverflowError)
             by now apply num_add_raise.
           congruence.
        -- exists pre, num, post, t. repeat split; auto.
           cbn [sum_loop] in Hpre.
           rewrite (check_numeric x Hx), Hadd in Hpre. exact Hpre.
    + apply num_add_raise in Hadd as [-> Hover]. split; [intros _ | reflexivity].
      exists [], x, args, total. repeat split; auto.
Qed.

Lemma sum_loop_integral (args : list value) :
  Forall integral args ->
  forall a, sum_loop (NInt a) args = Ok (NInt (a + int_sum (map int_value args))).
Proof.
  induction 1 as [| num args Hint _ IH]; intros a; simpl.
  - f_equal. f_equal. lia.
  - rewrite (check_integral num Hint). simpl.
    rewrite IH. f_equal. f_equal. lia.
Qed.

Lemma sum_loop_floats (fs : list spec_float) :
  forall f, sum_loop (NFloat f) (map VFloat fs)
            = Ok (NFloat (fold_left Float64.add fs f)).
Proof. induction fs as [| g fs IH]; intros f; simpl; auto. Qed.

Lemma sum_numbers_floats (f : spec_float) (fs : list spec_float) :
  sum_numbers (map VFloat (f :: fs)) = Ok (NFloat (float_sum (f :: fs))).
Proof.
  unfold sum_numbers, float_sum. simpl.
  apply sum_loop_floats.
Qed.

Lemma sum_numbers_no_type_error (args : list value) :
  Forall numeric args ->
  forall ty num, sum_numbers args <> Raise (TypeError ty num).
Proof.
  intros Hargs ty num.
  destruct (sum_loop_numeric_outcome args Hargs (NInt 0)) as [[t Ht] | Ht];
    unfold sum_numbers; rewrite Ht; discriminate.
Qed.

Lemma int_sum_permutation (zs zs' : list Z) :
  Permutation zs zs' -> int_sum zs = int_sum zs'.
Proof.
  induction 1 as [| z l l' _ IH | y z l | l l' l'' _ IH1 _ IH2]; simpl.
  - reflexivity.
  - now rewrite IH.
  - lia.
  - now rewrite IH1.
Qed.



Lemma int_sum_bools (bs : list bool) :
  int_sum (map int_value (map VBool bs))
  = Z.of_nat (count_occ bool_dec bs true).
Proof.
  induction bs as [| b bs IH]; [reflexivity |].
  cbn [map int_value int_sum fold_right count_occ].
  fold (int_sum (map int_value (map VBool bs))). rewrite IH.
  destruct b; destruct (bool_dec _ true) as [Hb | Hb];
    try discriminate Hb; try (now elim Hb); cbn [Z.b2z]; lia.
Qed.

Lemma sum_loop_bool_as_int (args : list value) :
  Forall numeric args ->
  forall total, sum_loop total (map bool_as_int args) = sum_loop total args.
Proof.
  induction 1 as [| num args Hnum _ IH]; intros total; simpl.
  - reflexivity.
  - rewrite check_bool_as_int, (check_numeric num Hnum).
    destruct (num_add total (number_of num)); simpl; auto.
Qed.

(** C1, as stated, fails on [(2 ** 1024, 1.0)]: both arguments are
    numbers, and the addition of the float to the integer total raises
    [OverflowError] instead of giving a sum. *)
Lemma sum_numbers_overflow_counterexample :
  Forall numeric overflowing_args
  /\ sum_numbers overflowing_args = Raise OverflowError
  /\ ~ (exists total, sum_numbers overflowing_args = Ok total).
Proof.
  assert (H : sum_numbers overflowing_args = Raise OverflowError)
    by (vm_compute; reflexivity).
  split; [| split].
  - repeat constructor.
  - exact H.
  - intros [total Ht]. rewrite H in Ht. discriminate Ht.
Qed.

(** C1 (amended).  On a sequence of numbers (integers, booleans,
    floats) [sum_numbers], and [sum_from_list] on the same list, never
    reports a type mismatch: the outcome is the total accumulated from
    the integer 0 by adding the elements from left to right, which is a
    total unless, at some element, an integer too large for a float has
    to be added to a float; [OverflowError] is raised then, and only
    then.  A sequence of integers gives their exact
    sum, a non-empty sequence of floats the float sum taken from left to
    right, and the empty sequence gives 0. *)
Theorem sum_numbers_numeric (args : list value) :
  Forall numeric args ->
  sum_numbers args = accumulated_total (map number_of args)
  /\ sum_from_list args = sum_numbers args
  /\ ((exists total, sum_numbers args = Ok total)
      \/ sum_numbers args = Raise OverflowError)
  /\ (sum_numbers args = Raise OverflowError
      <-> exists pre num post t,
            args = pre ++ num :: post
            /\ sum_numbers pre = Ok t
            /\ overflows t (number_of num))
  /\ (Forall integral args ->
      sum_numbers args = Ok (NInt (int_sum (map int_value args))))
  /\ (forall f fs, args = map VFloat (f :: fs) ->
      sum_numbers args = Ok (NFloat (float_sum (f :: fs))))
  /\ sum_numbers [] = Ok (NInt 0).
Proof.
  intros Hargs.
  split; [| split; [| split; [| split; [| split; [| split]]]]];
    try reflexivity.
  - apply sum_loop_accumulates, Hargs.
  - apply sum_loop_numeric_outcome, Hargs.
  - apply sum_loop_overflow, Hargs.
  - intros Hint. unfold sum_numbers.
    now rewrite (sum_loop_integral args Hint 0).
  - intros f fs ->. apply sum_numbers_floats.
Qed.

Lemma sum_numbers_numeric_witness :
  Forall numeric [VInt 1; VFloat Float64.one; VBool true]
  /\ sum_numbers [VInt 1; VFloat Float64.one; VBool true]
     = accumulated_total [NInt 1; NFloat Float64.one; NInt 1].
Proof.
  assert (H : Forall numeric [VInt 1; VFloat Float64.one; VBool true])
    by (repeat constructor).
  split; [exact H | exact (proj1 (sum_numbers_numeric _ H))].
Defined.


(** What the loop does at an element that is refused, after elements
    that it has added. *)
Lemma sum_numbers_refused (pre : list value) (bad : value)
  (post : list value) (text : result string) :
  message_text bad = Some text ->
  sum_numbers (pre ++ bad :: post)
  = (t <- sum_numbers pre ;;
     message <- text ;;
     Raise (TypeError (type_name bad) message)).
Proof.
  intros Htext. unfold sum_numbers. rewrite sum_loop_app.
  destruct (sum_loop (NInt 0) pre) as [t | e]; simpl; [| reflexivity].
  unfold message_text in Htext.
  destruct bad; simpl in *; try discriminate Htext;
    now injection Htext as <-.
Qed.



(** C3, as stated, fails on floats: [(9007199254740992.0, 1.0, 1.0)]
    sums to [9007199254740992.0], each [1.0] being lost to rounding,
    while the same values as [(1.0, 1.0, 9007199254740992.0)] sum to
    [9007199254740994.0]. *)
Lemma sum_numbers_order_counterexample :
  Forall numeric rounding_args
  /\ Permutation rounding_args rounding_args_reordered
  /\ sum_numbers rounding_args = Ok (NFloat Float64.two_53)
  /\ sum_numbers rounding_args_reordered = Ok (NFloat Float64.two_53_plus_2)
  /\ sum_numbers rounding_args_reordered <> sum_numbers rounding_args.
Proof.
  assert (H1 : sum_numbers rounding_args = Ok (NFloat Float64.two_53))
    by (vm_compute; reflexivity).
  assert (H2 : sum_numbers rounding_args_reordered
               = Ok (NFloat Float64.two_53_plus_2))
    by (vm_compute; reflexivity).
  split; [repeat constructor | split; [| split; [exact H1 | split]]].
  - unfold rounding_args, rounding_args_reordered.
    change (Permutation
              ([VFloat Float64.two_53] ++ [VFloat Float64.one; VFloat Float64.one])
              ([VFloat Float64.one; VFloat Float64.one] ++ [VFloat Float64.two_53])).
    apply Permutation_app_comm.
  - exact H2.
  - rewrite H1, H2. discriminate.
Qed.

(** C3 (amended).  On a sequence of integers (booleans included) the
    result of [sum_numbers] does not depend on the order of the
    elements: every permutation of the sequence gives the same sum. *)
Theorem sum_numbers_permutation_integral (args args' : list value) :
  Forall integral args ->
  Permutation args args' ->
  sum_numbers args' = sum_numbers args.
Proof.
  intros Hint Hperm.
  assert (Hint' : Forall integral args').
  { rewrite Forall_forall in *. intros num Hin.
    apply Hint. eapply Permutation_in; [symmetry; exact Hperm | exact Hin]. }
  unfold sum_numbers.
  rewrite (sum_loop_integral args Hint 0), (sum_loop_integral args' Hint' 0).
  do 2 f_equal. f_equal.
  symmetry. apply int_sum_permutation.
  now apply Permutation_map.
Qed.

Lemma sum_numbers_permutation_integral_witness :
  Forall integral [VInt 10; VInt (-5); VBool true]
  /\ Permutation [VInt 10; VInt (-5); VBool true]
                 [VBool true; VInt 10; VInt (-5)]
  /\ sum_numbers [VBool true; VInt 10; VInt (-5)]
     = sum_numbers [VInt 10; VInt (-5); VBool true].
Proof.
  assert (Hint : Forall integral [VInt 10; VInt (-5); VBool true])
    by (repeat constructor).
  assert (Hperm : Permutation [VInt 10; VInt (-5); VBool true]
                              [VBool true; VInt 10; VInt (-5)]).
  { change (Permutation ([VInt 10; VInt (-5)] ++ [VBool true])
                        ([VBool true] ++ [VInt 10; VInt (-5)])).
    apply Permutation_app_comm. }
  split; [exact Hint | split; [exact Hperm |]].
  exact (sum_numbers_permutation_integral _ _ Hint Hperm).
Defined.

(** C4.  On every list of values [sum_from_list] has the outcome of
    [sum_numbers] applied to the elements of the list in the same
    order: the same total when one is returned, the same exception when
    one is raised. *)
Theorem sum_from_list_agrees (numbers : list value) :
  sum_from_list numbers = sum_numbers numbers
  /\ (forall total,
        sum_from_list numbers = Ok total <-> sum_numbers numbers = Ok total)
  /\ (forall e,
        sum_from_list numbers = Raise e <-> sum_numbers numbers = Raise e).
Proof.
  unfold sum_from_list. split; [reflexivity | split; intros; reflexivity].
Qed.

(** C8.  The four sums of the specification. *)
Theorem sum_numbers_examples :
  sum_numbers [VInt 1; VInt 2; VInt 3; VInt 4; VInt 5] = Ok (NInt 15)
  /\ sum_numbers [VInt (-1); VInt (-2); VInt (-3)] = Ok (NInt (-6))
  /\ sum_numbers [VInt 10; VInt (-5); VInt 3; VInt (-2)] = Ok (NInt 6)
  /\ sum_numbers [VInt 0; VInt 0; VInt 0] = Ok (NInt 0).
Proof. repeat split. Qed.

(** C9.  Booleans pass the check for numbers.  On a sequence of
    booleans and other numbers [sum_numbers] raises no [TypeError] and
    has the outcome it has when [True] is replaced by 1 and [False] by
    0; a sequence of booleans sums to the number of its [True], and
    [sum_numbers(True, False, True)] is 2. *)
Theorem sum_numbers_booleans (args : list value) :
  Forall numeric args ->
  (forall b, isinstance_int (VBool b) = true
             /\ isinstance_int_float (VBool b) = true)
  /\ (forall ty num, sum_numbers args <> Raise (TypeError ty num))
  /\ sum_numbers args = sum_numbers (map bool_as_int args)
  /\ (forall bs, args = map VBool bs ->
      sum_numbers args = Ok (NInt (Z.of_nat (count_occ bool_dec bs true))))
  /\ sum_numbers [VBool true; VBool false; VBool true] = Ok (NInt 2).
Proof.
  intros Hargs.
  split; [now split | split; [| split; [| split; [| reflexivity]]]].
  - now apply sum_numbers_no_type_error.
  - unfold sum_numbers. symmetry. now apply sum_loop_bool_as_int.
  - intros bs ->. unfold sum_numbers.
    rewrite sum_loop_integral.
    + now rewrite int_sum_bools.
    + clear Hargs. induction bs; constructor; auto. reflexivity.
Qed.

Lemma sum_numbers_booleans_witness :
  Forall numeric [VBool true; VInt 4; VBool false]
  /\ sum_numbers [VBool true; VInt 4; VBool false]
     = sum_numbers [VInt 1; VInt 4; VInt 0].
Proof.
  assert (H : Forall numeric [VBool true; VInt 4; VBool false])
    by (repeat constructor).
  split; [exact H |].
  exact (proj1 (proj2 (proj2 (sum_numbers_booleans _ H)))).
Defined.

(** * Properties of the interactive session *)

(** The sum of the collected floats is a total: nothing is converted
    but the integer 0 the total starts from. *)
Lemma sum_from_list_floats (numbers : list spec_float) :
  sum_from_list (map VFloat numbers)
  = Ok (match numbers with
        | [] => NInt 0
        | _ :: _ => NFloat (float_sum numbers)
        end).
Proof.
  destruct numbers as [| f fs]; [reflexivity |].
  unfold sum_from_list. apply sum_numbers_floats.
Qed.

Section SessionProperties.

Variable float_of_string : string -> option spec_float.

#[local] Abbreviation try_block' := (try_block float_of_string).
#[local] Abbreviation entry_loop' := (entry_loop float_of_string).
#[local] Abbreviation session_from' := (session_from float_of_string).
#[local] Abbreviation calculator' := (interactive_calculator float_of_string).
#[local] Abbreviation prompt_for numbers :=
  (Prompt (prompt_text (List.length numbers + 1))).

Lemma try_block_blank numbers line :
  is_empty (strip line) = true -> try_block' numbers (Ok line) = Ok Break.
Proof. intros H. unfold try_block. simpl. now rewrite H. Qed.

Lemma try_block_refused numbers line :
  is_empty (strip line) = false ->
  float_of_string (strip line) = None ->
  try_block' numbers (Ok line) = Raise ValueError.
Proof.
  intros H1 H2. unfold try_block, py_float. simpl.
  now rewrite H1, H2.
Qed.

Lemma try_block_append numbers reply numbers' :
  try_block' numbers reply = Ok (Append numbers') ->
  exists line f,
    reply = Ok line
    /\ float_of_string (strip line) = Some f
    /\ numbers' = numbers ++ [f].
Proof.
  unfold try_block, py_float.
  destruct reply as [line | e]; simpl; [| discriminate].
  destruct (is_empty (strip line)); [discriminate |].
  destruct (float_of_string (strip line)) as [f |] eqn:Hf; simpl;
    [| discriminate].
  intros [= <-]. now exists line, f.
Qed.

Lemma try_block_prompts_again numbers reply :
  prompts_again reply = true ->
  (exists numbers', try_block' numbers reply = Ok (Append numbers'))
  \/ try_block' numbers reply = Raise ValueError.
Proof.
  unfold try_block, py_float.
  destruct reply as [line | e]; simpl.
  - destruct (is_empty (strip line)); [discriminate |]. intros _.
    destruct (float_of_string (strip line)) as [f |]; simpl; eauto.
  - destruct e; try discriminate. now right.
Qed.

(** Every pass through the loop starts with the prompt. *)
Lemma entry_loop_prompt numbers replies :
  exists out, fst (entry_loop' numbers replies) = prompt_for numbers :: out.
Proof.
  destruct replies as [| reply replies]; simpl; [eauto |].
  destruct (try_block' numbers reply) as [[numbers' |] | e]; simpl.
  - destruct (entry_loop' numbers' replies); simpl; eauto.
  - eauto.
  - destruct (entry_loop' numbers replies); destruct e; simpl; eauto.
Qed.

(** While the entries are read only prompts and plain messages are
    written. *)
Lemma entry_loop_plain replies :
  forall numbers, Forall plain_line (fst (entry_loop' numbers replies)).
Proof.
  induction replies as [| reply replies IH]; intros numbers; simpl.
  - repeat constructor.
  - destruct (try_block' numbers reply) as [[numbers' |] | e].
    + specialize (IH numbers').
      destruct (entry_loop' numbers' replies) as [out ex]; simpl in *.
      constructor; [reflexivity | exact IH].
    + repeat constructor.
    + specialize (IH numbers).
      destruct (entry_loop' numbers replies) as [out ex]; simpl in *.
      destruct e; simpl; repeat (constructor; try reflexivity); exact IH.
Qed.

(** Only parsed floats are collected. *)
Lemma entry_loop_parsed replies :
  forall numbers out numbers',
    Forall (parsed float_of_string) numbers ->
    entry_loop' numbers replies = (out, Broke numbers') ->
    Forall (parsed float_of_string) numbers'.
Proof.
  induction replies as [| reply replies IH]; intros numbers out numbers' Hnum;
    simpl.
  - discriminate.
  - destruct (try_block' numbers reply) as [[numbers1 |] | e] eqn:Htry.
    + destruct (try_block_append _ _ _ Htry) as (line & f & _ & Hf & ->).
      destruct (entry_loop' (numbers ++ [f]) replies) as [out1 ex1] eqn:Hloop.
      intros [= _ ->].
      apply (IH (numbers ++ [f]) out1 numbers'); [| exact Hloop].
      apply Forall_app. split; [exact Hnum |].
      constructor; [now exists (strip line) | constructor].
    + now intros [= _ <-].
    + destruct (entry_loop' numbers replies) as [out1 ex1] eqn:Hloop.
      destruct e; try discriminate.
      intros [= _ ->]. now apply (IH numbers out1 numbers').
Qed.

Lemma after_loop_plain ex :
  Forall (fun o => forall e, o <> PrintError e) (fst (after_loop ex)).
Proof.
  destruct ex as [numbers | | e]; simpl; try constructor.
  destruct numbers as [| f fs].
  - repeat constructor. discriminate.
  - rewrite sum_from_list_floats. repeat constructor. discriminate.
Qed.

Lemma session_from_no_error numbers replies e :
  ~ In (PrintError e) (fst (session_from' numbers replies)).
Proof.
  unfold session_from.
  pose proof (entry_loop_plain replies numbers) as Hplain.
  destruct (entry_loop' numbers replies) as [out ex]; simpl in Hplain.
  pose proof (after_loop_plain ex) as Hafter.
  destruct (after_loop ex) as [out' r]; simpl in *.
  intros [Hin | Hin]%in_app_or.
  - rewrite Forall_forall in Hplain. now apply Hplain in Hin.
  - rewrite Forall_forall in Hafter. now apply (Hafter _ Hin e).
Qed.

(** Replies that keep the loop going are passed over; what follows
    them is read from the collected set they leave. *)
Lemma entry_loop_prompts_again pre :
  Forall (fun reply => prompts_again reply = true) pre ->
  forall numbers,
  exists out numbers',
    Forall plain_line out
    /\ forall rest,
         entry_loop' numbers (pre ++ rest)
         = (out ++ fst (entry_loop' numbers' rest),
            snd (entry_loop' numbers' rest)).
Proof.
  induction 1 as [| reply pre Hreply _ IH]; intros numbers.
  - exists [], numbers. split; [constructor |].
    intros rest. simpl. now destruct (entry_loop' numbers rest).
  - destruct (try_block_prompts_again numbers reply Hreply)
      as [[numbers1 Htry] | Htry].
    + destruct (IH numbers1) as (out & numbers' & Hout & Hrest).
      exists (prompt_for numbers :: out), numbers'.
      split; [constructor; [reflexivity | exact Hout] |].
      intros rest. cbn [app entry_loop]. now rewrite Htry, Hrest.
    + destruct (IH numbers) as (out & numbers' & Hout & Hrest).
      exists (prompt_for numbers
                :: Print "Please enter a valid number." :: out), numbers'.
      split; [repeat (constructor; [reflexivity |]); exact Hout |].
      intros rest. cbn [app entry_loop]. now rewrite Htry, Hrest.
Qed.

Lemma entry_loop_interrupt numbers rest :
  entry_loop' numbers (Raise KeyboardInterrupt :: rest)
  = ([prompt_for numbers; Print (newline ++ "Calculation cancelled.")%string],
     Returned).
Proof. reflexivity. Qed.

(** C5.  Whatever has been collected, an entry that is not blank and
    that [float] refuses is answered by the message asking for a valid
    number, and the loop goes on from the same collected set: its next
    output is the prompt for the same position, and the rest of the
    session is the one that the remaining replies give from this
    unchanged set. *)
Theorem unparseable_entry_reprompts numbers line replies :
  is_empty (strip line) = false ->
  float_of_string (strip line) = None ->
  try_block' numbers (Ok line) = Raise ValueError
  /\ entry_loop' numbers (Ok line :: replies)
     = (prompt_for numbers
          :: Print "Please enter a valid number."
          :: fst (entry_loop' numbers replies),
        snd (entry_loop' numbers replies))
  /\ (exists out,
        fst (entry_loop' numbers replies) = prompt_for numbers :: out)
  /\ session_from' numbers (Ok line :: replies)
     = (prompt_for numbers
          :: Print "Please enter a valid number."
          :: fst (session_from' numbers replies),
        snd (session_from' numbers replies)).
Proof.
  intros Hblank Hfloat.
  pose proof (try_block_refused numbers line Hblank Hfloat) as Htry.
  assert (Hloop : entry_loop' numbers (Ok line :: replies)
                  = (prompt_for numbers
                       :: Print "Please enter a valid number."
                       :: fst (entry_loop' numbers replies),
                     snd (entry_loop' numbers replies))).
  { cbn [entry_loop]. rewrite Htry.
    now destruct (entry_loop' numbers replies). }
  split; [exact Htry | split; [exact Hloop | split]].
  - apply entry_loop_prompt.
  - unfold session_from. rewrite Hloop.
    destruct (entry_loop' numbers replies) as [out ex]; simpl.
    now destruct (after_loop ex).
Qed.

(** C6.  A blank entry ends the loop with the collected set as it is.
    Given at once, with nothing collected, it makes the session print
    that no numbers were entered and return: no sum is computed and no
    line reports one.  With numbers collected, the session prints the
    sum of all of them, which [sum_from_list] returns. *)
Theorem blank_entry_ends_entry numbers line replies :
  is_empty (strip line) = true ->
  entry_loop' numbers (Ok line :: replies)
  = ([prompt_for numbers], Broke numbers)
  /\ session_from' [] (Ok line :: replies)
     = ([Prompt (prompt_text 1); Print "No numbers entered."], Ok tt)
  /\ calculator' (Ok line :: replies)
     = (banner ++ [Prompt (prompt_text 1); Print "No numbers entered."],
        Ok tt)
  /\ Forall plain_line (fst (calculator' (Ok line :: replies)))
  /\ (numbers <> [] ->
      sum_from_list (map VFloat numbers) = Ok (NFloat (float_sum numbers))
      /\ session_from' numbers (Ok line :: replies)
         = ([prompt_for numbers;
             PrintSum numbers (NFloat (float_sum numbers))],
            Ok tt)).
Proof.
  intros Hblank.
  assert (Hloop : forall ns, entry_loop' ns (Ok line :: replies)
                             = ([prompt_for ns], Broke ns)).
  { intros ns. cbn [entry_loop]. now rewrite (try_block_blank ns line Hblank). }
  assert (Hnone : session_from' [] (Ok line :: replies)
                  = ([Prompt (prompt_text 1); Print "No numbers entered."],
                     Ok tt)).
  { unfold session_from. now rewrite Hloop. }
  split; [apply Hloop | split; [exact Hnone | split; [| split]]].
  - unfold interactive_calculator. now rewrite Hnone.
  - unfold interactive_calculator. rewrite Hnone.
    repeat (constructor; [reflexivity |]). constructor.
  - intros Hsome.
    destruct numbers as [| f fs]; [congruence |].
    pose proof (sum_from_list_floats (f :: fs)) as Hsum.
    split; [exact Hsum |].
    unfold session_from. rewrite Hloop. cbn [after_loop]. now rewrite Hsum.
Qed.

(** C7.  When the reply to a prompt is an interrupt, the session
    prints that the calculation is cancelled and returns, whatever has
    been collected and whatever would follow.  A session that reaches
    the interrupt, through entries that each led to a new prompt, ends
    with that message and contains no line that reports a sum. *)
Theorem interrupt_aborts_session numbers rest :
  entry_loop' numbers (Raise KeyboardInterrupt :: rest)
  = ([prompt_for numbers; Print (newline ++ "Calculation cancelled.")%string],
     Returned)
  /\ session_from' numbers (Raise KeyboardInterrupt :: rest)
     = ([prompt_for numbers;
         Print (newline ++ "Calculation cancelled.")%string],
        Ok tt)
  /\ forall pre,
       Forall (fun reply => prompts_again reply = true) pre ->
       calculator' (pre ++ Raise KeyboardInterrupt :: rest)
       = calculator' (pre ++ [Raise KeyboardInterrupt])
       /\ snd (calculator' (pre ++ Raise KeyboardInterrupt :: rest)) = Ok tt
       /\ Forall plain_line
            (fst (calculator' (pre ++ Raise KeyboardInterrupt :: rest)))
       /\ exists out,
            fst (calculator' (pre ++ Raise KeyboardInterrupt :: rest))
            = out ++ [Print (newline ++ "Calculation cancelled.")%string].
Proof.
  split; [reflexivity | split; [reflexivity |]].
  intros pre Hpre.
  destruct (entry_loop_prompts_again pre Hpre [])
    as (out & numbers' & Hout & Hrest).
  assert (Hrun : forall tail,
            calculator' (pre ++ Raise KeyboardInterrupt :: tail)
            = (banner
                 ++ (out ++ [prompt_for numbers';
                             Print (newline ++ "Calculation cancelled.")%string])
                 ++ [],
               Ok tt)).
  { intros tail. unfold interactive_calculator, session_from.
    rewrite Hrest, entry_loop_interrupt. reflexivity. }
  rewrite (Hrun rest), (Hrun []). cbn [fst snd].
  split; [reflexivity | split; [reflexivity | split]].
  - rewrite app_nil_r. apply Forall_app. split.
    + repeat (constructor; [reflexivity |]). constructor.
    + apply Forall_app. split; [exact Hout |].
      repeat (constructor; [reflexivity |]). constructor.
  - exists (banner ++ out ++ [prompt_for numbers']).
    rewrite app_nil_r, <- !app_assoc. reflexivity.
Qed.

(** C10.  The collected set holds nothing but floats that [float]
    gave, the summation of such a set returns a total, and so no
    session ever prints the line of the error branch. *)
Theorem error_branch_unreachable replies :
  (forall numbers : list spec_float,
     exists total, sum_from_list (map VFloat numbers) = Ok total)
  /\ (forall out numbers,
        entry_loop' [] replies = (out, Broke numbers) ->
        Forall (parsed float_of_string) numbers
        /\ Forall numeric (map VFloat numbers))
  /\ (forall numbers e,
        ~ In (PrintError e) (fst (session_from' numbers replies)))
  /\ (forall e, ~ In (PrintError e) (fst (calculator' replies))).
Proof.
  split; [| split; [| split]].
  - intros numbers. rewrite sum_from_list_floats. eauto.
  - intros out numbers Hloop. split.
    + apply (entry_loop_parsed replies [] out numbers); [constructor | exact Hloop].
    + apply Forall_map. apply Forall_forall. reflexivity.
  - intros numbers e. apply session_from_no_error.
  - intros e. unfold interactive_calculator.
    pose proof (session_from_no_error [] replies e) as Hno.
    destruct (session_from' [] replies) as [out r]; simpl in *.
    intros [Hin | [Hin | Hin]];
      [discriminate Hin | discriminate Hin | exact (Hno Hin)].
Qed.

End SessionProperties.

(** ** The session properties on sample sessions *)

Lemma unparseable_entry_reprompts_witness :
  is_empty (strip "abc") = false
  /\ float_of_integer_literal (strip "abc") = None
  /\ session_from float_of_integer_literal [Float64.one]
       [Ok "abc"%string; Ok ""%string]
     = (Prompt (prompt_text 2)
          :: Print "Please enter a valid number."
          :: fst (session_from float_of_integer_literal [Float64.one]
                    [Ok ""%string]),
        snd (session_from float_of_integer_literal [Float64.one]
               [Ok ""%string])).
Proof.
  assert (H1 : is_empty (strip "abc") = false) by reflexivity.
  assert (H2 : float_of_integer_literal (strip "abc") = None) by reflexivity.
  split; [exact H1 | split; [exact H2 |]].
  exact (proj2 (proj2 (proj2
           (unparseable_entry_reprompts float_of_integer_literal
              [Float64.one] "abc" [Ok ""%string] H1 H2)))).
Defined.

Lemma blank_entry_ends_entry_witness :
  is_empty (strip "  ") = true
  /\ [Float64.one; Float64.two] <> []
  /\ session_from float_of_integer_literal [Float64.one; Float64.two]
       [Ok "  "%string]
     = ([Prompt (prompt_text 3);
         PrintSum [Float64.one; Float64.two]
           (NFloat (float_sum [Float64.one; Float64.two]))],
        Ok tt).
Proof.
  assert (H1 : is_empty (strip "  ") = true) by reflexivity.
  assert (H2 : [Float64.one; Float64.two] <> []) by discriminate.
  split; [exact H1 | split; [exact H2 |]].
  exact (proj2 (proj2 (proj2 (proj2 (proj2
           (blank_entry_ends_entry float_of_integer_literal
              [Float64.one; Float64.two] "  " [] H1)))) H2)).
Defined.

Lemma interrupt_aborts_session_witness :
  Forall (fun reply => prompts_again reply = true)
    [Ok "1"%string; Ok "abc"%string]
  /\ snd (interactive_calculator float_of_integer_literal
            ([Ok "1"%string; Ok "abc"%string]
               ++ Raise KeyboardInterrupt :: [Ok ""%string]))
     = Ok tt.
Proof.
  assert (H : Forall (fun reply => prompts_again reply = true)
                [Ok "1"%string; Ok "abc"%string])
    by (repeat constructor).
  split; [exact H |].
  exact (proj1 (proj2 (proj2 (proj2
           (interrupt_aborts_session float_of_integer_literal
              [] [Ok ""%string])) _ H))).
Defined.

Lemma error_branch_unreachable_witness :
  entry_loop float_of_integer_literal [] sample_replies
  = (sample_prompts, Broke sample_numbers)
  /\ Forall (parsed float_of_integer_literal) sample_numbers.
Proof.
  assert (H : entry_loop float_of_integer_literal [] sample_replies
              = (sample_prompts, Broke sample_numbers))
    by (vm_compute; reflexivity).
  split; [exact H |].
  exact (proj1 (proj1 (proj2
           (error_branch_unreachable float_of_integer_literal sample_replies))
           _ _ H)).
Defined.

(** * Further properties of the summation *)

(** Once the total is a float it stays one. *)
Lemma sum_loop_float_total (args : list value) :
  forall f t, sum_loop (NFloat f) args = Ok t -> is_float_total t.
Proof.
  induction args as [| num args IH]; intros f t; simpl.
  - intros [= <-]. now exists f.
  - destruct (check num) as [[y | g] | ty [text | e]]; simpl;
      try discriminate.
    + destruct (Float64.of_int y); simpl; [apply IH | discriminate].
    + apply IH.
Qed.

Lemma sum_loop_int_total (args : list value) :
  forall a t,
    sum_loop (NInt a) args = Ok t ->
    (is_int_total t <-> Forall integral args).
Proof.
  induction args as [| num args IH]; intros a t; simpl.
  - intros [= <-]. split; [constructor | now exists a].
  - destruct num as [z | b | f0 | s | | ty [text | e]]; simpl;
      try discriminate.
    + intros Ht. rewrite (IH _ _ Ht). split.
      * now constructor.
      * now inversion 1.
    + intros Ht. rewrite (IH _ _ Ht). split.
      * now constructor.
      * now inversion 1.
    + destruct (Float64.of_int a); simpl; [| discriminate].
      intros Ht. apply sum_loop_float_total in Ht as [g ->]. split.
      * intros [z Hz]. discriminate Hz.
      * inversion 1 as [| ? ? Hint _]. discriminate Hint.
Qed.

Lemma int_sum_app (xs ys : list Z) :
  int_sum (xs ++ ys) = int_sum xs + int_sum ys.
Proof. induction xs as [| x xs IH]; simpl in *; lia. Qed.

Lemma add_zero_l (f : spec_float) :
  Float64.add Float64.zero f
  = match f with
    | S754_zero true => S754_zero false
    | _ => f
    end.
Proof. now destruct f as [[|] | [|] | | s m e]. Qed.

Lemma add_nan_r (f : spec_float) : Float64.add f S754_nan = S754_nan.
Proof. now destruct f as [[|] | [|] | | s m e]. Qed.

Lemma fold_add_nan (fs : list spec_float) :
  fold_left Float64.add fs S754_nan = S754_nan.
Proof. induction fs as [| f fs IH]; simpl; [reflexivity | exact IH]. Qed.

Lemma fold_add_in_nan (fs : list spec_float) :
  In S754_nan fs ->
  forall f, fold_left Float64.add fs f = S754_nan.
Proof.
  induction fs as [| g fs IH]; intros Hin f; [destruct Hin |].
  simpl. destruct Hin as [-> | Hin].
  - rewrite add_nan_r. apply fold_add_nan.
  - now apply IH.
Qed.

(** X1.  The kind of the result follows the arguments: when
    [sum_numbers] returns, the total is an [int] exactly when every
    argument is an [int] or a [bool], and it is then their exact sum;
    with any other argument list it is a [float]. *)
Theorem sum_numbers_result_kind (args : list value) (t : number) :
  sum_numbers args = Ok t ->
  (is_int_total t <-> Forall integral args)
  /\ (is_float_total t <-> ~ Forall integral args)
  /\ (forall z, t = NInt z -> z = int_sum (map int_value args)).
Proof.
  intros Ht.
  pose proof (sum_loop_int_total args 0 t Ht) as Hkind.
  split; [exact Hkind | split].
  - rewrite <- Hkind. destruct t as [z | f]; split.
    + intros [f Hf]. discriminate Hf.
    + intros Hno. elim Hno. now exists z.
    + intros _ [z Hz]. discriminate Hz.
    + intros _. now exists f.
  - intros z ->.
    assert (Hint : Forall integral args) by (apply Hkind; now exists z).
    unfold sum_numbers in Ht. rewrite (sum_loop_integral args Hint 0) in Ht.
    now injection Ht as ->.
Qed.

Lemma sum_numbers_result_kind_witness :
  sum_numbers [VInt 2; VBool true] = Ok (NInt 3)
  /\ (is_int_total (NInt 3) <-> Forall integral [VInt 2; VBool true]).
Proof.
  assert (H : sum_numbers [VInt 2; VBool true] = Ok (NInt 3)) by reflexivity.
  split; [exact H | exact (proj1 (sum_numbers_result_kind _ _ H))].
Defined.

(** X2.  The first failure is final: when [sum_numbers] raises an
    exception on some arguments, it raises the same exception with any
    further arguments after them, whatever these are; so a call that
    returns a total also returns one on every prefix of its
    arguments. *)
Theorem sum_numbers_fail_fast (pre post : list value) :
  (forall e, sum_numbers pre = Raise e ->
             sum_numbers (pre ++ post) = Raise e
             /\ sum_from_list (pre ++ post) = Raise e)
  /\ (forall t, sum_numbers (pre ++ post) = Ok t ->
                exists t', sum_numbers pre = Ok t').
Proof.
  unfold sum_from_list, sum_numbers. rewrite sum_loop_app.
  destruct (sum_loop (NInt 0) pre) as [t' | e']; simpl; split.
  - discriminate.
  - intros _ _. now exists t'.
  - intros e [= ->]. now split.
  - discriminate.
Qed.

Lemma sum_numbers_fail_fast_witness :
  sum_numbers [VInt 1; VNone] = Raise (TypeError "NoneType" "None")
  /\ sum_numbers ([VInt 1; VNone] ++ [VInt 3])
     = Raise (TypeError "NoneType" "None").
Proof.
  assert (H : sum_numbers [VInt 1; VNone] = Raise (TypeError "NoneType" "None"))
    by reflexivity.
  split; [exact H |].
  exact (proj1 (proj1 (sum_numbers_fail_fast [VInt 1; VNone] [VInt 3]) _ H)).
Defined.

(** X3.  On integers the sum of a concatenation is the sum of the sums
    of the parts, and summing the two partial sums gives it as well. *)
Theorem sum_numbers_concat_integral (l1 l2 : list value) :
  Forall integral l1 ->
  Forall integral l2 ->
  exists a b,
    sum_numbers l1 = Ok (NInt a)
    /\ sum_numbers l2 = Ok (NInt b)
    /\ sum_numbers (l1 ++ l2) = Ok (NInt (a + b))
    /\ sum_numbers [VInt a; VInt b] = sum_numbers (l1 ++ l2).
Proof.
  intros H1 H2.
  exists (int_sum (map int_value l1)), (int_sum (map int_value l2)).
  assert (H12 : Forall integral (l1 ++ l2)) by (apply Forall_app; now split).
  unfold sum_numbers.
  rewrite (sum_loop_integral l1 H1 0), (sum_loop_integral l2 H2 0),
    (sum_loop_integral (l1 ++ l2) H12 0), map_app, int_sum_app.
  repeat split.
Qed.

Lemma sum_numbers_concat_integral_witness :
  Forall integral [VInt 1; VInt 2]
  /\ Forall integral [VBool true; VInt (-7)]
  /\ exists a b,
       sum_numbers [VInt 1; VInt 2] = Ok (NInt a)
       /\ sum_numbers [VBool true; VInt (-7)] = Ok (NInt b)
       /\ sum_numbers ([VInt 1; VInt 2] ++ [VBool true; VInt (-7)])
          = Ok (NInt (a + b))
       /\ sum_numbers [VInt a; VInt b]
          = sum_numbers ([VInt 1; VInt 2] ++ [VBool true; VInt (-7)]).
Proof.
  assert (H1 : Forall integral [VInt 1; VInt 2]) by (repeat constructor).
  assert (H2 : Forall integral [VBool true; VInt (-7)])
    by (repeat constructor).
  split; [exact H1 | split; [exact H2 |]].
  exact (sum_numbers_concat_integral _ _ H1 H2).
Defined.

(** X4.  A single argument: an integer is returned as it is, a boolean
    as the integer 1 or 0, and a float as it is except that [-0.0] is
    returned as [0.0], the total having started from the integer 0. *)
Theorem sum_numbers_single :
  (forall z, sum_numbers [VInt z] = Ok (NInt z))
  /\ (forall b, sum_numbers [VBool b] = Ok (NInt (Z.b2z b)))
  /\ (forall f, sum_numbers [VFloat f]
                = Ok (NFloat match f with
                             | S754_zero true => S754_zero false
                             | _ => f
                             end)).
Proof.
  split; [| split].
  - intros z. reflexivity.
  - intros b. reflexivity.
  - intros f. rewrite <- add_zero_l. reflexivity.
Qed.

(** X5.  A NaN among floats makes the sum NaN, wherever it stands. *)
Theorem sum_numbers_nan (fs : list spec_float) :
  In S754_nan fs ->
  sum_numbers (map VFloat fs) = Ok (NFloat S754_nan)
  /\ sum_from_list (map VFloat fs) = Ok (NFloat S754_nan).
Proof.
  intros Hin.
  assert (Hsum : sum_numbers (map VFloat fs) = Ok (NFloat S754_nan)).
  { destruct fs as [| f fs]; [destruct Hin |].
    rewrite sum_numbers_floats. unfold float_sum.
    now rewrite (fold_add_in_nan (f :: fs) Hin). }
  split; [exact Hsum | exact Hsum].
Qed.

Lemma sum_numbers_nan_witness :
  In S754_nan [Float64.one; S754_nan; Float64.two]
  /\ sum_numbers (map VFloat [Float64.one; S754_nan; Float64.two])
     = Ok (NFloat S754_nan).
Proof.
  assert (H : In S754_nan [Float64.one; S754_nan; Float64.two])
    by (right; left; reflexivity).
  split; [exact H | exact (proj1 (sum_numbers_nan _ H))].
Defined.

(** X6.  The integers that come before the first float are added
    exactly and converted to a float once, as a whole, when the float is
    met; from there on the floats are added from left to right.  The
    call fails only if the integer sum is too large for a float. *)
Theorem sum_numbers_integers_then_floats
  (ints : list value) (f : spec_float) (fs : list spec_float) :
  Forall integral ints ->
  sum_numbers (ints ++ map VFloat (f :: fs))
  = match Float64.of_int (int_sum (map int_value ints)) with
    | Some g => Ok (NFloat (fold_left Float64.add (f :: fs) g))
    | None => Raise OverflowError
    end.
Proof.
  intros Hint. unfold sum_numbers.
  rewrite sum_loop_app, (sum_loop_integral ints Hint 0). simpl.
  destruct (Float64.of_int (int_sum (map int_value ints))); simpl.
  - apply sum_loop_floats.
  - reflexivity.
Qed.

Lemma sum_numbers_integers_then_floats_witness :
  Forall integral [VInt 1; VInt 1]
  /\ sum_numbers ([VInt 1; VInt 1] ++ map VFloat [Float64.one])
     = Ok (NFloat (S754_finite false 6755399441055744 (-51))).
Proof.
  assert (H : Forall integral [VInt 1; VInt 1]) by (repeat constructor).
  split; [exact H |].
  exact (sum_numbers_integers_then_floats _ Float64.one [] H).
Defined.

(** X14.  When the value that is refused cannot be formatted into
    the message, the exception that the formatting raises is what
    [sum_numbers], and so [sum_from_list], raises, in place of the
    [TypeError]. *)
Theorem sum_numbers_message_failure (pre : list value) (bad : value)
  (post : list value) (t : number) (e : exn) :
  sum_numbers pre = Ok t ->
  message_text bad = Some (Raise e) ->
  sum_numbers (pre ++ bad :: post) = Raise e
  /\ sum_from_list (pre ++ bad :: post) = Raise e.
Proof.
  intros Hpre Hbad. unfold sum_from_list.
  rewrite (sum_numbers_refused pre bad post (Raise e) Hbad), Hpre.
  now split.
Qed.

Lemma sum_numbers_message_failure_witness :
  sum_numbers [VInt 1] = Ok (NInt 1)
  /\ message_text (VOther "list" (Raise ValueError)) = Some (Raise ValueError)
  /\ sum_numbers ([VInt 1] ++ VOther "list" (Raise ValueError) :: [VInt 2])
     = Raise ValueError.
Proof.
  assert (H1 : sum_numbers [VInt 1] = Ok (NInt 1)) by reflexivity.
  assert (H2 : message_text (VOther "list" (Raise ValueError))
               = Some (Raise ValueError)) by reflexivity.
  split; [exact H1 | split; [exact H2 |]].
  exact (proj1 (sum_numbers_message_failure _ _ [VInt 2] _ _ H1 H2)).
Defined.

(** * Further properties of the session and of the program *)

Lemma lstrip_all_space (s : string) :
  is_empty (lstrip s) = all_space s.
Proof.
  induction s as [| c s IH]; simpl; [reflexivity |].
  destruct (is_space c); simpl; [exact IH | reflexivity].
Qed.

Lemma lstrip_head (s : string) :
  match lstrip s with
  | EmptyString => True
  | String c _ => is_space c = false
  end.
Proof.
  induction s as [| c s IH]; simpl; [exact I |].
  destruct (is_space c) eqn:Hc; [exact IH | exact Hc].
Qed.

Lemma rstrip_all_space (s : string) :
  is_empty (rstrip s) = all_space s.
Proof.
  induction s as [| c s IH]; simpl; [reflexivity |].
  rewrite <- IH.
  destruct (is_space c), (is_empty (rstrip s)); reflexivity.
Qed.

Lemma strip_all_space (s : string) :
  is_empty (strip s) = all_space s.
Proof.
  unfold strip. rewrite rstrip_all_space, <- (lstrip_all_space s).
  pose proof (lstrip_head s) as Hhead.
  destruct (lstrip s) as [| c r]; simpl; [reflexivity |].
  now rewrite Hhead.
Qed.

Section SessionFurther.

Variable float_of_string : string -> option spec_float.

#[local] Abbreviation try_block' := (try_block float_of_string).
#[local] Abbreviation entry_loop' := (entry_loop float_of_string).
#[local] Abbreviation session_from' := (session_from float_of_string).
#[local] Abbreviation calculator' := (interactive_calculator float_of_string).
#[local] Abbreviation accepted' := (accepted float_of_string).
#[local] Abbreviation prompt_for numbers :=
  (Prompt (prompt_text (List.length numbers + 1))).

(** Entries that are not blank are read one after the other; the
    accepted ones are appended in order. *)
Lemma entry_loop_lines (lines : list string) :
  Forall (fun line => is_empty (strip line) = false) lines ->
  forall numbers,
  exists out,
    Forall plain_line out
    /\ forall rest,
         entry_loop' numbers (map Ok lines ++ rest)
         = (out ++ fst (entry_loop' (numbers ++ accepted' lines) rest),
            snd (entry_loop' (numbers ++ accepted' lines) rest)).
Proof.
  induction 1 as [| line lines Hline _ IH]; intros numbers.
  - exists []. split; [constructor |]. intros rest. simpl.
    rewrite app_nil_r. now destruct (entry_loop' numbers rest).
  - cbn [map app accepted flat_map].
    fold (accepted' lines).
    destruct (float_of_string (strip line)) as [f |] eqn:Hf.
    + destruct (IH (numbers ++ [f])) as (out & Hout & Hrest).
      exists (prompt_for numbers :: out).
      split; [constructor; [reflexivity | exact Hout] |].
      intros rest. cbn [entry_loop]. unfold try_block, py_float. cbn [bind].
      rewrite Hline, Hf. cbn [bind].
      rewrite Hrest, <- app_assoc. reflexivity.
    + destruct (IH numbers) as (out & Hout & Hrest).
      exists (prompt_for numbers :: Print "Please enter a valid number." :: out).
      split; [repeat (constructor; [reflexivity |]); exact Hout |].
      intros rest. cbn [entry_loop].
      rewrite (try_block_refused float_of_string numbers line Hline Hf).
      rewrite Hrest. reflexivity.
Qed.

(** A reply that stops the loop decides how it is left; what follows
    is not read. *)
Lemma entry_loop_stop numbers reply rest :
  stops reply ->
  entry_loop' numbers (reply :: rest)
  = match reply with
    | Ok _ => ([prompt_for numbers], Broke numbers)
    | Raise KeyboardInterrupt =>
        ([prompt_for numbers;
          Print (newline ++ "Calculation cancelled.")%string], Returned)
    | Raise e => ([prompt_for numbers], Propagated e)
    end.
Proof.
  unfold stops. destruct reply as [line | e]; simpl.
  - intros Hblank. apply negb_false_iff in Hblank.
    unfold try_block. simpl. now rewrite Hblank.
  - destruct e; try reflexivity. discriminate.
Qed.

Lemma entry_loop_propagated replies :
  forall numbers e,
    snd (entry_loop' numbers replies) = Propagated e ->
    e <> ValueError /\ e <> KeyboardInterrupt
    /\ (e = EOFError \/ In (Raise e) replies).
Proof.
  induction replies as [| reply replies IH]; intros numbers e; simpl.
  - intros [= <-]. repeat split; try discriminate. now left.
  - destruct (try_block' numbers reply) as [[numbers' |] | e'] eqn:Htry.
    + specialize (IH numbers' e).
      destruct (entry_loop' numbers' replies) as [out ex]; simpl in *.
      intros Hex. destruct (IH Hex) as (H1 & H2 & [H3 | H3]); auto.
    + discriminate.
    + assert (Hreply : e' = ValueError \/ reply = Raise e').
      { unfold try_block, py_float in Htry.
        destruct reply as [line | e0]; simpl in Htry.
        - destruct (is_empty (strip line)); [discriminate |].
          destruct (float_of_string (strip line)); simpl in Htry;
            [discriminate | injection Htry as <-; now left].
        - injection Htry as <-. now right. }
      specialize (IH numbers e).
      destruct (entry_loop' numbers replies) as [out ex]; simpl in *.
      destruct e'; simpl; try discriminate.
      * intros [= <-]. destruct Hreply as [Hv | ->]; [discriminate |].
        repeat split; try discriminate. right. now left.
      * intros [= <-]. destruct Hreply as [Hv | ->]; [discriminate |].
        repeat split; try discriminate. right. now left.
      * intros Hex. destruct (IH Hex) as (H1 & H2 & [H3 | H3]); auto.
      * intros [= <-]. repeat split; try discriminate. now left.
      * intros [= <-]. destruct Hreply as [Hv | ->]; [discriminate |].
        repeat split; try discriminate. right. now left.
Qed.

Lemma after_loop_raise ex e :
  snd (after_loop ex) = Raise e -> ex = Propagated e.
Proof.
  destruct ex as [numbers | | e']; simpl; try discriminate.
  - destruct numbers as [| f fs]; [discriminate |].
    rewrite sum_from_list_floats. discriminate.
  - now intros [= ->].
Qed.

Lemma plain_not_sum (out : list output) numbers total :
  Forall plain_line out -> ~ In (PrintSum numbers total) out.
Proof.
  intros Hplain Hin. rewrite Forall_forall in Hplain.
  apply Hplain in Hin. discriminate Hin.
Qed.

(** X7.  A session of entries that are not blank, closed by a blank
    one, sums exactly the entries that [float] accepts, in the order of
    entry: the entries it refuses are skipped, the last prompt carries
    the number of accepted entries plus one, and the line that follows
    reports the accepted floats and their sum from left to right, or
    that no numbers were entered when none was accepted.  Replies after
    the blank entry are not read. *)
Theorem session_sums_accepted_entries (lines : list string) (blank : string)
  (rest : list (result string)) :
  Forall (fun line => is_empty (strip line) = false) lines ->
  is_empty (strip blank) = true ->
  exists out,
    Forall plain_line out
    /\ calculator' (map Ok lines ++ Ok blank :: rest)
       = (banner ++ out
            ++ [Prompt (prompt_text (List.length (accepted' lines) + 1));
                match accepted' lines with
                | [] => Print "No numbers entered."
                | _ :: _ =>
                    PrintSum (accepted' lines)
                      (NFloat (float_sum (accepted' lines)))
                end],
          Ok tt).
Proof.
  intros Hlines Hblank.
  destruct (entry_loop_lines lines Hlines []) as (out & Hout & Hrest).
  exists out. split; [exact Hout |].
  unfold interactive_calculator, session_from.
  rewrite Hrest, entry_loop_stop
    by (unfold stops; simpl; now rewrite Hblank).
  cbn [app fst snd after_loop].
  destruct (accepted' lines) as [| f fs].
  - now rewrite <- app_assoc.
  - rewrite sum_from_list_floats. now rewrite <- app_assoc.
Qed.

(** X8.  When the input ends before a blank entry or an interrupt,
    the [EOFError] of [input] leaves the session: nothing that was
    collected is summed, and the last thing written is a prompt. *)
Theorem end_of_input_raises (replies : list (result string)) :
  Forall (fun reply => prompts_again reply = true) replies ->
  snd (calculator' replies) = Raise EOFError
  /\ Forall plain_line (fst (calculator' replies))
  /\ exists out n, fst (calculator' replies) = out ++ [Prompt (prompt_text n)].
Proof.
  intros Hreplies.
  destruct (entry_loop_prompts_again float_of_string replies Hreplies [])
    as (out & numbers' & Hout & Hrest).
  specialize (Hrest []). rewrite app_nil_r in Hrest.
  unfold interactive_calculator, session_from. rewrite Hrest.
  cbn [entry_loop fst snd after_loop]. split; [reflexivity | split].
  - rewrite app_nil_r. apply Forall_app. split.
    + repeat (constructor; [reflexivity |]). constructor.
    + apply Forall_app. split; [exact Hout |].
      repeat (constructor; [reflexivity |]). constructor.
  - exists (banner ++ out), (List.length numbers' + 1)%nat.
    now rewrite app_nil_r, <- app_assoc.
Qed.

(** X9.  The exceptions that can leave the session: never a
    [ValueError] nor a [KeyboardInterrupt], which the loop handles, and
    never one raised by the summation; only the [EOFError] of an input
    that has ended, or an exception that a call of [input] raised. *)
Theorem session_exceptions (replies : list (result string)) (e : exn) :
  snd (calculator' replies) = Raise e ->
  e <> ValueError
  /\ e <> KeyboardInterrupt
  /\ (e = EOFError \/ In (Raise e) replies).
Proof.
  unfold interactive_calculator, session_from.
  pose proof (entry_loop_propagated replies [] e) as Hloop.
  destruct (entry_loop' [] replies) as [out ex]; simpl in Hloop.
  pose proof (after_loop_raise ex e) as Hafter.
  destruct (after_loop ex) as [out' r]; simpl in *.
  intros Hr. apply Hloop. now apply Hafter.
Qed.


(** X11.  An entry made of whitespace only is a blank entry, and it
    is the only kind: it ends the entry of numbers like the empty line,
    while an entry with any other character is handed to [float]. *)
Theorem whitespace_entry_is_blank (line : string) :
  (is_empty (strip line) = true <-> all_space line = true)
  /\ (all_space line = true ->
      forall numbers rest,
        entry_loop' numbers (Ok line :: rest)
        = ([prompt_for numbers], Broke numbers))
  /\ (all_space line = false ->
      forall numbers,
        try_block' numbers (Ok line)
        = match float_of_string (strip line) with
          | Some number => Ok (Append (numbers ++ [number]))
          | None => Raise ValueError
          end).
Proof.
  rewrite <- strip_all_space. split; [reflexivity | split].
  - intros Hblank numbers rest.
    apply (entry_loop_stop numbers (Ok line) rest).
    unfold stops. simpl. now rewrite Hblank.
  - intros Hblank numbers. unfold try_block, py_float. simpl.
    rewrite Hblank. now destruct (float_of_string (strip line)).
Qed.

(** X12.  A sum is reported at most once, as the last line of a
    session that returns, and what it reports is fixed by the list it
    shows: a list that is not empty, of floats that [float] gave, with
    their float sum from left to right, which is what [sum_from_list]
    returns on it. *)
Theorem printed_sum_is_float_sum (replies : list (result string))
  (numbers : list spec_float) (total : number) :
  In (PrintSum numbers total) (fst (calculator' replies)) ->
  numbers <> []
  /\ Forall (parsed float_of_string) numbers
  /\ total = NFloat (float_sum numbers)
  /\ sum_from_list (map VFloat numbers) = Ok total
  /\ snd (calculator' replies) = Ok tt
  /\ exists out,
       Forall plain_line out
       /\ fst (calculator' replies) = out ++ [PrintSum numbers total].
Proof.
  unfold interactive_calculator, session_from.
  pose proof (entry_loop_plain float_of_string replies []) as Hplain.
  pose proof (entry_loop_parsed float_of_string replies []) as Hparsed.
  destruct (entry_loop' [] replies) as [out ex]. simpl in Hplain.
  assert (Hbanner : Forall plain_line (banner ++ out)).
  { apply Forall_app. split; [| exact Hplain].
    repeat (constructor; [reflexivity |]). constructor. }
  destruct ex as [ns | | e]; cbn [after_loop].
  - destruct ns as [| f fs].
    + cbn [fst snd]. rewrite app_assoc. intros [Hin | Hin]%in_app_or.
      * now apply plain_not_sum in Hin.
      * destruct Hin as [Hin | []]. discriminate Hin.
    + rewrite sum_from_list_floats. cbn [fst snd]. rewrite app_assoc.
      intros [Hin | Hin]%in_app_or.
      * now apply plain_not_sum in Hin.
      * destruct Hin as [Hin | []]. injection Hin as <- <-.
        split; [discriminate | split].
        { apply (Hparsed out (f :: fs)); [constructor | reflexivity]. }
        split; [reflexivity | split; [apply sum_from_list_floats |]].
        split; [reflexivity |].
        exists (banner ++ out). now split.
  - cbn [fst snd]. rewrite app_nil_r. intros Hin.
    now apply plain_not_sum in Hin.
  - cbn [fst snd]. rewrite app_nil_r. intros Hin.
    now apply plain_not_sum in Hin.
Qed.

(** X13.  The program writes the heading and the three example
    results 15, 60 and 7.0, none of which raises, then an empty line,
    and goes on as the interactive session: what the session writes
    follows, and the outcome of the session is the outcome of the
    program. *)
Theorem main_runs_examples_then_session (replies : list (result string)) :
  main float_of_string replies
  = ([Line "Example calculations:";
      ExampleLine "sum_numbers(1, 2, 3, 4, 5)" (NInt 15);
      ExampleLine "sum_from_list([10, 20, 30])" (NInt 60);
      ExampleLine "sum_numbers(1.5, 2.5, 3.0)" (NFloat Literal.f7_0);
      Line ""]
       ++ map Session (fst (calculator' replies)),
     snd (calculator' replies)).
Proof.
  unfold main.
  change (sum_numbers [VInt 1; VInt 2; VInt 3; VInt 4; VInt 5])
    with (Ok (NInt 15)).
  change (sum_from_list [VInt 10; VInt 20; VInt 30]) with (Ok (NInt 60)).
  assert (H : sum_numbers [VFloat Literal.f1_5; VFloat Literal.f2_5;
                           VFloat Literal.f3_0]
              = Ok (NFloat Literal.f7_0)) by (vm_compute; reflexivity).
  rewrite H. now destruct (calculator' replies).
Qed.

End SessionFurther.

(** ** The further session properties on sample sessions *)

Lemma session_sums_accepted_entries_witness :
  Forall (fun line => is_empty (strip line) = false)
    ["1"%string; "abc"%string; "-3"%string]
  /\ is_empty (strip "") = true
  /\ exists out,
       Forall plain_line out
       /\ interactive_calculator float_of_integer_literal
            (map Ok ["1"%string; "abc"%string; "-3"%string]
               ++ Ok ""%string :: [Raise KeyboardInterrupt])
          = (banner ++ out
               ++ [Prompt (prompt_text 3);
                   PrintSum
                     [Float64.one; S754_finite true 6755399441055744 (-51)]
                     (NFloat
                        (float_sum
                           [Float64.one;
                            S754_finite true 6755399441055744 (-51)]))],
             Ok tt).
Proof.
  assert (H1 : Forall (fun line => is_empty (strip line) = false)
                 ["1"%string; "abc"%string; "-3"%string])
    by (repeat constructor).
  assert (H2 : is_empty (strip "") = true) by reflexivity.
  split; [exact H1 | split; [exact H2 |]].
  exact (session_sums_accepted_entries float_of_integer_literal
           _ _ [Raise KeyboardInterrupt] H1 H2).
Defined.

Lemma end_of_input_raises_witness :
  Forall (fun reply => prompts_again reply = true)
    [Ok "1"%string; Ok "x"%string]
  /\ snd (interactive_calculator float_of_integer_literal
            [Ok "1"%string; Ok "x"%string])
     = Raise EOFError.
Proof.
  assert (H : Forall (fun reply => prompts_again reply = true)
                [Ok "1"%string; Ok "x"%string])
    by (repeat constructor).
  split; [exact H |].
  exact (proj1 (end_of_input_raises float_of_integer_literal _ H)).
Defined.

Lemma session_exceptions_witness :
  snd (interactive_calculator float_of_integer_literal
         [Ok "1"%string; Ok "abc"%string])
  = Raise EOFError
  /\ EOFError <> ValueError
  /\ EOFError <> KeyboardInterrupt.
Proof.
  assert (H : snd (interactive_calculator float_of_integer_literal
                     [Ok "1"%string; Ok "abc"%string])
              = Raise EOFError) by reflexivity.
  split; [exact H |].
  destruct (session_exceptions float_of_integer_literal _ _ H)
    as (Hvalue & Hinterrupt & _).
  exact (conj Hvalue Hinterrupt).
Defined.


Lemma whitespace_entry_is_blank_witness :
  (all_space "   " = true
   /\ entry_loop float_of_integer_literal [Float64.one]
        [Ok "   "%string; Ok "5"%string]
      = ([Prompt (prompt_text 2)], Broke [Float64.one]))
  /\ (all_space " 7" = false
      /\ try_block float_of_integer_literal [Float64.one] (Ok " 7"%string)
         = match float_of_integer_literal (strip " 7") with
           | Some number => Ok (Append ([Float64.one] ++ [number]))
           | None => Raise ValueError
           end).
Proof.
  assert (H1 : all_space "   " = true) by reflexivity.
  assert (H2 : all_space " 7" = false) by reflexivity.
  split; split.
  - exact H1.
  - exact (proj1 (proj2 (whitespace_entry_is_blank float_of_integer_literal
                           "   ")) H1 [Float64.one] [Ok "5"%string]).
  - exact H2.
  - exact (proj2 (proj2 (whitespace_entry_is_blank float_of_integer_literal
                           " 7")) H2 [Float64.one]).
Defined.

Lemma printed_sum_is_float_sum_witness :
  In (PrintSum sample_numbers (NFloat Float64.zero))
    (fst (interactive_calculator float_of_integer_literal sample_replies))
  /\ NFloat Float64.zero = NFloat (float_sum sample_numbers).
Proof.
  assert (H : In (PrintSum sample_numbers (NFloat Float64.zero))
                (fst (interactive_calculator float_of_integer_literal
                        sample_replies))).
  { vm_compute. do 8 right. left. reflexivity. }
  split; [exact H |].
  exact (proj1 (proj2 (proj2
           (printed_sum_is_float_sum float_of_integer_literal _ _ _ H)))).
Defined.
